(** * The mongo external pillar of salt ([salt/pillar/mongo.py])

    A shallow embedding of the module's functions [get_connection],
    [authenticate_connection], [get_find_one], [get_aggregate] and
    [ext_pillar], followed by the properties of the resolution they
    implement.

    Python dictionaries with text keys are finite maps [gmap string value];
    logging and the calls made on the pymongo handles are recorded, in
    order, in a trace that every function returns next to its outcome; an
    outcome is either a returned value or a raised exception. *)

From stdpp Require Import base strings gmap list fin_maps pretty.
From Stdlib Require Import ZArith Ascii.

Set Warnings "-register-all".
Local Open Scope string_scope.
Local Open Scope Z_scope.
Local Open Scope list_scope.

(** ** Values *)

(** The values that a BSON document, a pipeline stage or a logging argument
    holds.  [VObjectId] is the native unique identifier of the store
    ([bson.ObjectId]), kept as its 24-digit hexadecimal form. *)
Inductive value : Type :=
| VNone
| VBool (b : bool)
| VInt (z : Z)
| VText (s : string)
| VObjectId (oid : string)
| VList (l : list value)
| VDict (d : gmap string value).

Abbreviation document := (gmap string value).

Global Instance value_inhabited : Inhabited value := populate VNone.

(** Python's truth value testing, as used by [if x:] and [x and y]. *)
Definition truthy (v : value) : bool :=
  match v with
  | VNone => false
  | VBool b => b
  | VInt z => negb (z =? 0)
  | VText s => negb (String.eqb s "")
  | VObjectId _ => true
  | VList l => negb (bool_decide (l = []))
  | VDict d => negb (bool_decide (d = ∅))
  end.

(** An optional argument: [None] in Python, or a value seen through [inj]. *)
Definition truthy_opt {A} (inj : A → value) (o : option A) : bool :=
  match o with
  | None => false
  | Some a => truthy (inj a)
  end.

Definition text_list (l : list string) : value := VList (VText <$> l).

(** ** Exceptions, outcomes and the trace *)

Inductive exn : Type :=
| ConnectionFailure (msg : string)
| OperationFailure (msg : string)
| InvalidName (msg : string)
| ReError (msg : string).

Inductive outcome (A : Type) : Type :=
| Return (a : A)
| Raise (e : exn).
Arguments Return {A} a.
Arguments Raise {A} e.

(** The levels of the [logging] module. *)
Inductive level : Type := DEBUG | INFO | WARNING | ERROR | CRITICAL.

(** What a call leaves behind: a log record (level, format string and
    arguments, as [logging] keeps them) or a call on a pymongo handle. *)
Inductive event : Type :=
| Log (lvl : level) (msg : string) (args : list value)
| Connect (host : string) (port : Z)
| Authenticate (user password : string)
| FindOne (collection : string) (filter : document)
          (projection : option (list string))
| Aggregate (collection : string) (pipeline : list value).

Definition trace := list event.

Definition M (A : Type) : Type := (trace * outcome A)%type.

Definition ret {A} (a : A) : M A := ([], Return a).

Definition bind {A B} (m : M A) (k : A → M B) : M B :=
  match m with
  | (t, Return a) => let '(t', r) := k a in (t ++ t', r)
  | (t, Raise e) => (t, Raise e)
  end.

Notation "'let*' x ':=' m 'in' k" := (bind m (λ x, k))
  (at level 10, x name, m at level 100, k at level 200).
Notation "m ';;;' k" := (bind m (λ _, k))
  (at level 100, k at level 200, right associativity).

Definition log (lvl : level) (msg : string) (args : list value) : M unit :=
  ([Log lvl msg args], Return tt).

(** A call on an external handle: the event, then whatever the handle
    answers. *)
Definition call {A} (ev : event) (answer : outcome A) : M A := ([ev], answer).

(** Outside code that only answers (no event of its own). *)
Definition lift {A} (answer : outcome A) : M A := ([], answer).

(** ** The pymongo handles *)

(** What [collection.aggregate] hands back: pymongo's [CommandCursor], an
    object that is always true, or, from a test double, a plain list, which
    is true only when it is not empty.  [list(results)] gives the
    documents. *)
Inductive aggregate_result : Type :=
| CommandCursor (docs : list document)
| PlainList (docs : list document).

Definition cursor_truthy (r : aggregate_result) : bool :=
  match r with
  | CommandCursor _ => true
  | PlainList docs => negb (bool_decide (docs = []))
  end.

Definition cursor_list (r : aggregate_result) : list document :=
  match r with
  | CommandCursor docs => docs
  | PlainList docs => docs
  end.

(** A database handle [mdb]: [mdb.authenticate(user, password)],
    [mdb[collection].find_one(filter, projection=fields)] and
    [mdb[collection].aggregate(pipeline)]. *)
Record Database : Type := {
  db_authenticate : string → string → outcome unit;
  db_find_one : string → document → option (list string) →
                outcome (option document);
  db_aggregate : string → list value → outcome aggregate_result
}.

(** A client [conn]; [conn[name]] selects a database, and raises
    [InvalidName] for a name that pymongo does not take. *)
Record MongoClient : Type := {
  conn_getitem : string → outcome Database
}.

(** The [__opts__] dictionary of the module. *)
Record options : Type := {
  mongo_db : string;
  mongo_host : string;
  mongo_password : string;
  mongo_port : Z;
  mongo_user : string
}.

Definition default_opts : options :=
  {| mongo_db := "salt";
     mongo_host := "salt";
     mongo_password := "";
     mongo_port := 27017;
     mongo_user := "" |}.

(** ** The module *)

Section Mongo.

(** Python's [str] on the values that are neither text nor identifiers. *)
Variable py_str : value → string.
(** [re.sub(pattern, repl, string)] of the standard library. *)
Variable re_sub : string → string → string → outcome string.
(** [pymongo.MongoClient(host, port)]. *)
Variable pymongo_MongoClient : string → Z → outcome MongoClient.
(** The master configuration the loader puts in [__opts__]. *)
Variable opts : options.

(** [six.text_type]: text stays as it is and an [ObjectId] becomes its
    hexadecimal form. *)
Definition text_type (v : value) : string :=
  match v with
  | VText s => s
  | VObjectId oid => oid
  | _ => py_str v
  end.

Definition get_connection (host : string) (port : Z) : M MongoClient :=
  log INFO "connecting to %s:%s for mongo ext_pillar" [VText host; VInt port];;;
  let* conn := call (Connect host port) (pymongo_MongoClient host port) in
  ret conn.

Definition authenticate_connection (mdb : Database) (user password : string)
  : M Database :=
  log DEBUG "authenticating as '%s'" [VText user];;;
  call (Authenticate user password) (db_authenticate mdb user password);;;
  ret mdb.

(** The [else] branch of [get_find_one]. *)
Definition no_document_found (collection : string) : M value :=
  log DEBUG "ext_pillar.mongo: no document found in collection %s"
      [VText collection];;;
  ret (VDict ∅).

(** [if result:] fails for [None] and for an empty dictionary alike.  The
    test ["_id" in result] and the read [result["_id"]] are the one lookup
    [result !! "_id"]. *)
Definition get_find_one (mdb : Database) (collection id_field minion_id : string)
    (fields : option (list string)) : M value :=
  let* result := call (FindOne collection {[ id_field := VText minion_id ]} fields)
                      (db_find_one mdb collection
                                   {[ id_field := VText minion_id ]} fields) in
  match result with
  | Some result =>
      if truthy (VDict result) then
        (if truthy_opt text_list fields then
           log DEBUG "ext_pillar.mongo: found document, returning fields '%s'"
               [from_option text_list VNone fields]
         else
           log DEBUG "ext_pillar.mongo: found document, returning whole doc" []);;;
        match result !! "_id" with
        | Some oid => ret (VDict (<[ "_id" := VText (text_type oid) ]> result))
        | None => ret (VDict result)
        end
      else no_document_found collection
  | None => no_document_found collection
  end.

(** In the branch for more than one result nothing is returned after the
    log call: the function ends there and its value is [None]. *)
Definition get_aggregate (mdb : Database) (collection id_field minion_id : string)
    (aggregate : list value) : M value :=
  let pipeline := [] in
  let pipeline := pipeline ++ [VDict {[ "$match" := VDict {[ id_field := VText minion_id ]} ]}] in
  let pipeline := foldl (λ pipeline pipe, pipeline ++ [pipe]) pipeline aggregate in
  let* results := call (Aggregate collection pipeline)
                       (db_aggregate mdb collection pipeline) in
  if cursor_truthy results then
    let results := cursor_list results in
    if (length results =? 0)%nat then
      log ERROR "ext_pillar.mongo: pipeline returned no results" [];;;
      ret (VDict ∅)
    else if (1 <? length results)%nat then
      log ERROR "ext_pillar.mongo: pipeline returned more than one result" [];;;
      ret VNone
    else
      ret (VDict (results !!! 0%nat))
  else
    log DEBUG "ext_pillar.mongo: no response from pipeline %s" [VText collection];;;
    ret (VDict ∅).

Definition ext_pillar (minion_id : string) (pillar : document)
    (collection id_field : string) (re_pattern : option string)
    (re_replace : string) (fields : option (list string))
    (aggregate : option (list value)) : M value :=
  let* conn := get_connection (mongo_host opts) (mongo_port opts) in
  log DEBUG "using database '%s'" [VText (mongo_db opts)];;;
  let* mdb := lift (conn_getitem conn (mongo_db opts)) in
  let* mdb :=
    (if truthy (VText (mongo_user opts)) && truthy (VText (mongo_password opts))
     then authenticate_connection mdb (mongo_user opts) (mongo_password opts)
     else ret mdb) in
  let* minion_id :=
    (match re_pattern with
     | Some pattern =>
         if truthy (VText pattern)
         then lift (re_sub pattern re_replace minion_id)
         else ret minion_id
     | None => ret minion_id
     end) in
  log INFO "ext_pillar.mongo: looking up pillar def for {'%s': '%s'} in mongo"
      [VText id_field; VText minion_id];;;
  match aggregate with
  | None => get_find_one mdb collection id_field minion_id fields
  | Some aggregate => get_aggregate mdb collection id_field minion_id aggregate
  end.

(** *** What a run shows *)

(** The key that [ext_pillar] looks up: [minion_id] as it stands after the
    two lines under "Do the regex string replacement on the minion id". *)
Definition lookup_key (re_pattern : option string) (re_replace minion_id : string)
  : outcome string :=
  match re_pattern with
  | Some pattern =>
      if truthy (VText pattern)
      then re_sub pattern re_replace minion_id
      else Return minion_id
  | None => Return minion_id
  end.

(** [mdb] is the handle [ext_pillar] ends up with: the client is created,
    [mdb] is its database [mongo.db], and the authentication, when a user
    and a password are configured, goes through. *)
Definition store_ready (mdb : Database) : Prop :=
  ∃ conn,
    pymongo_MongoClient (mongo_host opts) (mongo_port opts) = Return conn
    ∧ conn_getitem conn (mongo_db opts) = Return mdb
    ∧ (truthy (VText (mongo_user opts)) && truthy (VText (mongo_password opts)) = true →
       db_authenticate mdb (mongo_user opts) (mongo_password opts) = Return tt).

End Mongo.

(** The queries sent to the store, in order. *)
Definition is_store_call (ev : event) : bool :=
  match ev with
  | FindOne _ _ _ | Aggregate _ _ => true
  | _ => false
  end.

Definition store_calls (t : trace) : trace := List.filter is_store_call t.

(** The query of a resolution with lookup key [key]. *)
Definition query_for (collection id_field key : string)
    (fields : option (list string)) (aggregate : option (list value)) : event :=
  match aggregate with
  | None => FindOne collection {[ id_field := VText key ]} fields
  | Some stages =>
      Aggregate collection
                (VDict {[ "$match" := VDict {[ id_field := VText key ]} ]} :: stages)
  end.

(** The loader asks [__virtual__] whether the module can be used: it
    answers [False] without pymongo and the name ["mongo"] with it. *)
Definition __virtual__ (HAS_PYMONGO : bool) : value :=
  if negb HAS_PYMONGO then VBool false else VText "mongo".

(** *** More views of a trace *)

Definition is_log (ev : event) : bool :=
  match ev with
  | Log _ _ _ => true
  | _ => false
  end.

Definition is_connect (ev : event) : bool :=
  match ev with
  | Connect _ _ => true
  | _ => false
  end.

Definition is_authenticate (ev : event) : bool :=
  match ev with
  | Authenticate _ _ => true
  | _ => false
  end.

(** The calls made on pymongo, of every kind, in order. *)
Definition external_calls (t : trace) : trace :=
  List.filter (λ ev, negb (is_log ev)) t.

Definition connect_calls (t : trace) : trace := List.filter is_connect t.

Definition authenticate_calls (t : trace) : trace := List.filter is_authenticate t.

(** The levels of the log records, in order. *)
Definition log_levels (t : trace) : list level :=
  flat_map (λ ev, match ev with Log lvl _ _ => [lvl] | _ => [] end) t.

(** What [ext_pillar] leaves in the trace before it turns to the minion id,
    when the client is created and the authentication, if any, goes
    through. *)
Definition prologue (opts : options) : trace :=
  [Log INFO "connecting to %s:%s for mongo ext_pillar"
       [VText (mongo_host opts); VInt (mongo_port opts)];
   Connect (mongo_host opts) (mongo_port opts);
   Log DEBUG "using database '%s'" [VText (mongo_db opts)]]
  ++ (if truthy (VText (mongo_user opts)) && truthy (VText (mongo_password opts))
      then [Log DEBUG "authenticating as '%s'" [VText (mongo_user opts)];
            Authenticate (mongo_user opts) (mongo_password opts)]
      else []).

(** The record logged just before the query. *)
Definition lookup_record (id_field key : string) : event :=
  Log INFO "ext_pillar.mongo: looking up pillar def for {'%s': '%s'} in mongo"
      [VText id_field; VText key].

(** The records of the single-document strategy. *)
Definition found_record (fields : option (list string)) : event :=
  if truthy_opt text_list fields
  then Log DEBUG "ext_pillar.mongo: found document, returning fields '%s'"
           [from_option text_list VNone fields]
  else Log DEBUG "ext_pillar.mongo: found document, returning whole doc" [].

Definition not_found_record (collection : string) : event :=
  Log DEBUG "ext_pillar.mongo: no document found in collection %s" [VText collection].

(** ** A store held in memory

    The answers of a MongoDB server, for the queries this module sends, over
    collections kept as lists of documents: equality filters on scalars, list
    projections, and pipelines made of [$match] stages.  It stands in for
    pymongo in the worked examples. *)

Definition scalar_eqb (v w : value) : bool :=
  match v, w with
  | VNone, VNone => true
  | VBool a, VBool b => Bool.eqb a b
  | VInt a, VInt b => a =? b
  | VText a, VText b => String.eqb a b
  | VObjectId a, VObjectId b => String.eqb a b
  | _, _ => false
  end.

(** A filter [{k: v, ...}] selects the documents holding [v] under [k]. *)
Definition doc_matches (filter doc : document) : bool :=
  forallb (λ kv : string * value,
             match doc !! kv.1 with
             | Some w => scalar_eqb kv.2 w
             | None => false
             end)
          (map_to_list filter).

(** A projection given as a list of names of top-level fields keeps those
    fields, and always [_id]. *)
Definition project (fields : list string) (doc : document) : document :=
  filter (λ kv : string * value, kv.1 = "_id" ∨ kv.1 ∈ fields) doc.

Definition mem_find_one (colls : gmap string (list document))
    (collection : string) (filter : document)
    (projection : option (list string)) : outcome (option document) :=
  Return (doc ← List.find (doc_matches filter) (colls !!! collection);
          Some (from_option (λ fields, project fields doc) doc projection)).

Definition mem_stage (docs : outcome (list document)) (stage : value)
  : outcome (list document) :=
  match docs, stage with
  | Raise e, _ => Raise e
  | Return docs, VDict s =>
      if bool_decide (dom s = {[ "$match" ]}) then
        match s !! "$match" with
        | Some (VDict f) => Return (List.filter (doc_matches f) docs)
        | _ => Raise (OperationFailure "the match filter must be an object")
        end
      else Raise (OperationFailure "stage outside the in-memory store")
  | Return _, _ =>
      Raise (OperationFailure "each element of the pipeline must be an object")
  end.

Definition mem_aggregate (colls : gmap string (list document))
    (collection : string) (pipeline : list value) : outcome aggregate_result :=
  match foldl mem_stage (Return (colls !!! collection)) pipeline with
  | Return docs => Return (CommandCursor docs)
  | Raise e => Raise e
  end.

Definition mem_db (colls : gmap string (list document)) : Database :=
  {| db_authenticate := λ _ _, Return tt;
     db_find_one := mem_find_one colls;
     db_aggregate := mem_aggregate colls |}.

Definition mem_client (colls : gmap string (list document))
  : string → Z → outcome MongoClient :=
  λ _ _, Return {| conn_getitem := λ _, Return (mem_db colls) |}.

(** ** Substitution of plain-text patterns

    [re.sub] on the patterns that name a fixed text (no operator, except an
    escaped punctuation character) with a replacement free of backslashes:
    every occurrence, left to right and without overlap, is replaced; the
    empty pattern matches before every character and at the end.  Patterns
    outside this fragment are not interpreted and are answered with an
    error here. *)

Definition is_operator (c : ascii) : bool :=
  bool_decide (c ∈ String.list_ascii_of_string ".^$*+?{}[]|()\").

Fixpoint literal_of (pattern : string) : option string :=
  match pattern with
  | EmptyString => Some EmptyString
  | String c rest =>
      if Ascii.eqb c "\"%char then
        match rest with
        | String d rest' =>
            if is_operator d then String d <$> literal_of rest' else None
        | EmptyString => None
        end
      else if is_operator c then None
      else String c <$> literal_of rest
  end.

Fixpoint replace_all (skip : nat) (text repl s : string) : string :=
  match s with
  | EmptyString => EmptyString
  | String c s' =>
      match skip with
      | S n => replace_all n text repl s'
      | O =>
          if String.prefix text s
          then repl +:+ replace_all (String.length text - 1) text repl s'
          else String c (replace_all 0 text repl s')
      end
  end.

Fixpoint insert_everywhere (repl s : string) : string :=
  match s with
  | EmptyString => repl
  | String c s' => repl +:+ String c (insert_everywhere repl s')
  end.

Definition literal_sub (pattern repl s : string) : outcome string :=
  match literal_of pattern with
  | Some text =>
      if bool_decide ("\"%char ∈ String.list_ascii_of_string repl)
      then Raise (ReError "replacement outside the plain-text fragment")
      else if String.eqb text ""
      then Return (insert_everywhere repl s)
      else Return (replace_all 0 text repl s)
  | None => Raise (ReError "pattern outside the plain-text fragment")
  end.

(** [str] on the scalars. *)
Definition scalar_str (v : value) : string :=
  match v with
  | VNone => "None"
  | VBool true => "True"
  | VBool false => "False"
  | VInt z => pretty z
  | _ => ""
  end.

(** [ext_pillar] over the in-memory store, with the module's own
    [__opts__]. *)
Definition mem_ext_pillar (colls : gmap string (list document)) :=
  ext_pillar scalar_str literal_sub (mem_client colls) default_opts.

(** A store for the worked examples: the collection [vm] keyed on a [name]
    field, with native identifiers; [twins], where two documents carry the
    same name; and [pillar], keyed on [_id] with the minion id as text. *)
Definition web1 : document :=
  {[ "_id" := VObjectId "5f1d7f3c9d1e8a0012345678";
     "name" := VText "web1"; "role" := VText "web" ]}.

Definition db1 : document :=
  {[ "_id" := VObjectId "5f1d7f3c9d1e8a0012345679";
     "name" := VText "db1"; "role" := VText "db" ]}.

Definition twin1 : document :=
  {[ "_id" := VObjectId "5f1d7f3c9d1e8a001234567a";
     "name" := VText "web1"; "x" := VInt 1 ]}.

Definition twin2 : document :=
  {[ "_id" := VObjectId "5f1d7f3c9d1e8a001234567b";
     "name" := VText "web1"; "x" := VInt 2 ]}.

Definition minion1 : document :=
  {[ "_id" := VText "minion1"; "a" := VInt 1; "b" := VInt 2; "c" := VInt 3 ]}.

Definition store : gmap string (list document) :=
  {[ "vm" := [web1; db1]; "twins" := [twin1; twin2]; "pillar" := [minion1] ]}.

(** Other surroundings for the worked examples: a configuration with
    credentials, a server that refuses them, a client that cannot be
    created, a connection that drops at the first query, and a collection
    whose only document has no [_id]. *)
Definition secured_opts : options :=
  {| mongo_db := "salt";
     mongo_host := "db.example.com";
     mongo_password := "secret";
     mongo_port := 27017;
     mongo_user := "pillar" |}.

Definition refusing_client (colls : gmap string (list document))
  : string → Z → outcome MongoClient :=
  λ _ _, Return {| conn_getitem := λ _, Return
                     {| db_authenticate := λ _ _,
                          Raise (OperationFailure "Authentication failed.");
                        db_find_one := mem_find_one colls;
                        db_aggregate := mem_aggregate colls |} |}.

(** A client over the in-memory store that, as pymongo does, refuses the
    empty database name. *)
Definition strict_client (colls : gmap string (list document))
  : string → Z → outcome MongoClient :=
  λ _ _, Return {| conn_getitem := λ name,
                     if String.eqb name ""
                     then Raise (InvalidName "database name cannot be the empty string")
                     else Return (mem_db colls) |}.

Definition unreachable_client : string → Z → outcome MongoClient :=
  λ _ _, Raise (ConnectionFailure "unreachable").

Definition dropped_db : Database :=
  {| db_authenticate := λ _ _, Return tt;
     db_find_one := λ _ _ _, Raise (ConnectionFailure "connection closed");
     db_aggregate := λ _ _, Raise (ConnectionFailure "connection closed") |}.

Definition dropped_client : string → Z → outcome MongoClient :=
  λ _ _, Return {| conn_getitem := λ _, Return dropped_db |}.

Definition bare_store : gmap string (list document) :=
  {[ "bare" := [ {[ "name" := VText "web1" ]} ] ]}.

(** Whether [text] occurs somewhere in [s]. *)
Fixpoint occurs (text s : string) : bool :=
  String.prefix text s
  || match s with
     | EmptyString => false
     | String _ s' => occurs text s'
     end.

(** ** Properties of the resolution *)

Section Resolution.

Variable py_str : value → string.
Variable re_sub : string → string → string → outcome string.
Variable pymongo_MongoClient : string → Z → outcome MongoClient.
Variable opts : options.

Local Abbreviation ext_pillar := (ext_pillar py_str re_sub pymongo_MongoClient opts).
Local Abbreviation store_ready := (store_ready pymongo_MongoClient opts).
Local Abbreviation lookup_key := (lookup_key re_sub).
Local Abbreviation get_find_one := (get_find_one py_str).

Lemma foldl_append (init stages : list value) :
  foldl (λ pipeline pipe, pipeline ++ [pipe]) init stages = init ++ stages.
Proof.
  revert init. induction stages as [|pipe stages IH]; intros init; simpl.
  - by rewrite app_nil_r.
  - by rewrite IH, <- app_assoc.
Qed.

Lemma store_calls_app (t1 t2 : trace) :
  store_calls (t1 ++ t2) = store_calls t1 ++ store_calls t2.
Proof. apply List.filter_app. Qed.

Lemma bind_fst_snd {A B} (t : trace) (a : A) (k : A → M B) :
  bind (t, Return a) k = (t ++ (k a).1, (k a).2).
Proof. unfold bind. by destruct (k a). Qed.

(** Up to the query, a run with a ready store only logs, connects and
    authenticates; what follows is the chosen strategy on the lookup
    key. *)
Lemma ext_pillar_ready mdb key minion_id pillar collection id_field
      re_pattern re_replace fields aggregate :
  store_ready mdb →
  lookup_key re_pattern re_replace minion_id = Return key →
  ∃ t0, store_calls t0 = [] ∧
    ext_pillar minion_id pillar collection id_field re_pattern re_replace
               fields aggregate
    = bind (t0, Return tt) (λ _,
        match aggregate with
        | None => get_find_one mdb collection id_field key fields
        | Some stages => get_aggregate mdb collection id_field key stages
        end).
Proof.
  intros (conn & Hconn & Hdb & Hauth) Hkey.
  unfold ext_pillar, get_connection, authenticate_connection.
  rewrite Hconn. cbn [bind log call ret app].
  unfold lift at 1. rewrite Hdb. cbn [bind log call ret app].
  unfold lookup_key in Hkey.
  destruct (truthy (VText (mongo_user opts)) && truthy (VText (mongo_password opts)));
    [rewrite (Hauth eq_refl)|];
    (destruct re_pattern as [pattern|];
     [destruct (truthy (VText pattern))|];
     [unfold lift; rewrite Hkey | injection Hkey as -> | injection Hkey as ->]).
  all: cbn [bind log call ret app].
  all: destruct (match aggregate with Some _ => _ | None => _ end) as [t r].
  all: first [ eexists [_; _; _; _; _; _]; split; [|reflexivity]; reflexivity
             | eexists [_; _; _; _]; split; [|reflexivity]; reflexivity ].
Qed.

(** When the substitution raises, so does the call, before any query. *)
Lemma ext_pillar_key_error mdb e minion_id pillar collection id_field
      re_pattern re_replace fields aggregate :
  store_ready mdb →
  lookup_key re_pattern re_replace minion_id = Raise e →
  ∃ t0, store_calls t0 = [] ∧
    ext_pillar minion_id pillar collection id_field re_pattern re_replace
               fields aggregate = (t0, Raise e).
Proof.
  intros (conn & Hconn & Hdb & Hauth) Hkey.
  unfold ext_pillar, get_connection, authenticate_connection.
  rewrite Hconn. cbn [bind log call ret app].
  unfold lift at 1. rewrite Hdb. cbn [bind log call ret app].
  unfold lookup_key in Hkey.
  destruct (truthy (VText (mongo_user opts)) && truthy (VText (mongo_password opts)));
    [rewrite (Hauth eq_refl)|];
    (destruct re_pattern as [pattern|];
     [destruct (truthy (VText pattern))|];
     [unfold lift; rewrite Hkey | discriminate | discriminate]).
  all: cbn [bind log call ret app].
  all: eexists; split; [|reflexivity]; reflexivity.
Qed.

(** The queries of the two strategies. *)
Lemma get_find_one_calls mdb collection id_field key fields :
  store_calls (get_find_one mdb collection id_field key fields).1
  = [FindOne collection {[ id_field := VText key ]} fields].
Proof.
  unfold get_find_one, no_document_found, call.
  destruct (db_find_one _ _ _ _) as [[doc|]|e]; cbn [bind]; try reflexivity.
  destruct (truthy (VDict doc)); [|reflexivity].
  destruct (truthy_opt _ _), (doc !! "_id"); reflexivity.
Qed.

Lemma get_aggregate_calls mdb collection id_field key stages :
  store_calls (get_aggregate mdb collection id_field key stages).1
  = [Aggregate collection
               (VDict {[ "$match" := VDict {[ id_field := VText key ]} ]} :: stages)].
Proof.
  unfold get_aggregate, call. rewrite foldl_append. cbn [app].
  destruct (db_aggregate _ _ _) as [results|e]; cbn [bind]; [|reflexivity].
  destruct (cursor_truthy results); [|reflexivity].
  destruct (_ =? _)%nat; [reflexivity|].
  destruct (_ <? _)%nat; reflexivity.
Qed.

Lemma ext_pillar_store_calls mdb key minion_id pillar collection id_field
      re_pattern re_replace fields aggregate :
  store_ready mdb →
  lookup_key re_pattern re_replace minion_id = Return key →
  store_calls (ext_pillar minion_id pillar collection id_field re_pattern
                          re_replace fields aggregate).1
  = [query_for collection id_field key fields aggregate].
Proof.
  intros Hready Hkey.
  destruct (ext_pillar_ready mdb key minion_id pillar collection id_field
              re_pattern re_replace fields aggregate Hready Hkey)
    as (t0 & Hquiet & ->).
  rewrite bind_fst_snd. cbn [fst]. rewrite store_calls_app, Hquiet.
  destruct aggregate as [stages|]; cbn [query_for app].
  - apply get_aggregate_calls.
  - apply get_find_one_calls.
Qed.

Lemma ext_pillar_find_one mdb key minion_id pillar collection id_field
      re_pattern re_replace fields :
  store_ready mdb →
  lookup_key re_pattern re_replace minion_id = Return key →
  (ext_pillar minion_id pillar collection id_field re_pattern re_replace
              fields None).2
  = (get_find_one mdb collection id_field key fields).2.
Proof.
  intros Hready Hkey.
  destruct (ext_pillar_ready mdb key minion_id pillar collection id_field
              re_pattern re_replace fields None Hready Hkey)
    as (t0 & _ & ->).
  by rewrite bind_fst_snd.
Qed.

Lemma ext_pillar_aggregate mdb key minion_id pillar collection id_field
      re_pattern re_replace fields stages :
  store_ready mdb →
  lookup_key re_pattern re_replace minion_id = Return key →
  ∃ t0,
    ext_pillar minion_id pillar collection id_field re_pattern re_replace
               fields (Some stages)
    = (t0 ++ (get_aggregate mdb collection id_field key stages).1,
       (get_aggregate mdb collection id_field key stages).2).
Proof.
  intros Hready Hkey.
  destruct (ext_pillar_ready mdb key minion_id pillar collection id_field
              re_pattern re_replace fields (Some stages) Hready Hkey)
    as (t0 & _ & ->).
  exists t0. by rewrite bind_fst_snd.
Qed.

(** *** The single-document strategy *)

Lemma get_find_one_found mdb collection id_field key fields doc :
  db_find_one mdb collection {[ id_field := VText key ]} fields
  = Return (Some doc) →
  (get_find_one mdb collection id_field key fields).2
  = Return (VDict match doc !! "_id" with
                  | Some oid => <[ "_id" := VText (text_type py_str oid) ]> doc
                  | None => doc
                  end).
Proof.
  intros Hdoc. unfold get_find_one, no_document_found, call.
  rewrite Hdoc. cbn [bind].
  destruct (truthy (VDict doc)) eqn:Hfull.
  - destruct (truthy_opt _ _), (doc !! "_id"); reflexivity.
  - cbn [truthy] in Hfull. apply negb_false_iff, bool_decide_eq_true in Hfull.
    subst doc. by rewrite lookup_empty.
Qed.

Lemma get_find_one_missing mdb collection id_field key fields :
  db_find_one mdb collection {[ id_field := VText key ]} fields = Return None →
  (get_find_one mdb collection id_field key fields).2 = Return (VDict ∅).
Proof.
  intros Hnone. unfold get_find_one, no_document_found, call.
  by rewrite Hnone.
Qed.

(** *** The pipeline strategy *)

Section Pipeline.

Variables (mdb : Database) (collection id_field key : string).
Variables (stages : list value) (results : aggregate_result).

Hypothesis Hresults :
  db_aggregate mdb collection
    (VDict {[ "$match" := VDict {[ id_field := VText key ]} ]} :: stages)
  = Return results.

Lemma get_aggregate_unfold :
  get_aggregate mdb collection id_field key stages
  = bind ([Aggregate collection
             (VDict {[ "$match" := VDict {[ id_field := VText key ]} ]} :: stages)],
          Return results)
         (λ results,
            if cursor_truthy results then
              let results := cursor_list results in
              if (length results =? 0)%nat then
                log ERROR "ext_pillar.mongo: pipeline returned no results" [];;;
                ret (VDict ∅)
              else if (1 <? length results)%nat then
                log ERROR "ext_pillar.mongo: pipeline returned more than one result" [];;;
                ret VNone
              else ret (VDict (results !!! 0%nat))
            else
              log DEBUG "ext_pillar.mongo: no response from pipeline %s"
                  [VText collection];;;
              ret (VDict ∅)).
Proof.
  unfold get_aggregate, call. rewrite foldl_append. cbn [app].
  by rewrite Hresults.
Qed.

Lemma cursor_truthy_nonempty :
  cursor_list results ≠ [] → cursor_truthy results = true.
Proof.
  destruct results as [docs|docs]; cbn; [done|].
  intros Hne. by rewrite bool_decide_eq_false_2.
Qed.

Lemma get_aggregate_none :
  cursor_list results = [] →
  (get_aggregate mdb collection id_field key stages).2 = Return (VDict ∅).
Proof.
  intros Hnil. rewrite get_aggregate_unfold. cbn [bind].
  destruct (cursor_truthy results); [|reflexivity].
  by rewrite Hnil.
Qed.

Lemma get_aggregate_one doc :
  cursor_list results = [doc] →
  (get_aggregate mdb collection id_field key stages).2 = Return (VDict doc).
Proof.
  intros Hone. rewrite get_aggregate_unfold. cbn [bind].
  rewrite cursor_truthy_nonempty by (by rewrite Hone).
  by rewrite Hone.
Qed.

Lemma get_aggregate_many :
  (1 < length (cursor_list results))%nat →
  get_aggregate mdb collection id_field key stages
  = ([Aggregate collection
        (VDict {[ "$match" := VDict {[ id_field := VText key ]} ]} :: stages);
      Log ERROR "ext_pillar.mongo: pipeline returned more than one result" []],
     Return VNone).
Proof.
  intros Hmany. rewrite get_aggregate_unfold. cbn [bind].
  rewrite cursor_truthy_nonempty
    by (destruct (cursor_list results); [cbn in Hmany; lia | done]).
  cbn zeta.
  destruct (Nat.eqb_spec (length (cursor_list results)) 0); [lia|].
  destruct (Nat.ltb_spec 1 (length (cursor_list results))); [|lia].
  reflexivity.
Qed.

End Pipeline.

(** *** The specified properties *)

(** C3: a resolution for which the store has no matching document returns
    the empty mapping and raises nothing, in the single-document strategy
    ([find_one] answers [None]) and in the pipeline strategy (the
    aggregation has no document). *)
Theorem no_match_gives_empty_mapping mdb key minion_id pillar collection
        id_field re_pattern re_replace fields :
  store_ready mdb →
  lookup_key re_pattern re_replace minion_id = Return key →
  (db_find_one mdb collection {[ id_field := VText key ]} fields = Return None →
   (ext_pillar minion_id pillar collection id_field re_pattern re_replace
               fields None).2 = Return (VDict ∅))
  ∧ (∀ stages results,
       db_aggregate mdb collection
         (VDict {[ "$match" := VDict {[ id_field := VText key ]} ]} :: stages)
       = Return results →
       cursor_list results = [] →
       (ext_pillar minion_id pillar collection id_field re_pattern re_replace
                   fields (Some stages)).2 = Return (VDict ∅)).
Proof.
  intros Hready Hkey. split.
  - intros Hnone.
    rewrite (ext_pillar_find_one mdb key) by done.
    by apply get_find_one_missing.
  - intros stages results Hresults Hnil.
    destruct (ext_pillar_aggregate mdb key minion_id pillar collection id_field
                re_pattern re_replace fields stages Hready Hkey) as (t0 & ->).
    cbn [snd]. by eapply get_aggregate_none.
Qed.

(** C4: when [aggregate] is supplied, [fields] has no effect: two calls
    that differ only in [fields] (absent or not) give the same result and
    the same trace. *)
Theorem fields_ignored_with_aggregate minion_id pillar collection id_field
        re_pattern re_replace fields fields' stages :
  ext_pillar minion_id pillar collection id_field re_pattern re_replace
             fields (Some stages)
  = ext_pillar minion_id pillar collection id_field re_pattern re_replace
               fields' (Some stages).
Proof. reflexivity. Qed.

(** C5 (amended): with [re_pattern] absent or empty the key sent to the
    store is [minion_id] itself; with a non-empty [re_pattern] it is what
    [re.sub(re_pattern, re_replace, minion_id)] returns (so [minion_id]
    itself whenever the substitution changes nothing), and an error raised
    by [re.sub] is raised by [ext_pillar] before any query. *)
Theorem lookup_key_sent_to_store mdb minion_id pillar collection id_field
        re_pattern re_replace fields aggregate :
  store_ready mdb →
  (re_pattern = None ∨ re_pattern = Some "" →
   store_calls (ext_pillar minion_id pillar collection id_field re_pattern
                           re_replace fields aggregate).1
   = [query_for collection id_field minion_id fields aggregate])
  ∧ (∀ pattern, re_pattern = Some pattern → pattern ≠ "" →
     match re_sub pattern re_replace minion_id with
     | Return key =>
         store_calls (ext_pillar minion_id pillar collection id_field re_pattern
                                 re_replace fields aggregate).1
         = [query_for collection id_field key fields aggregate]
     | Raise e =>
         store_calls (ext_pillar minion_id pillar collection id_field re_pattern
                                 re_replace fields aggregate).1 = []
         ∧ (ext_pillar minion_id pillar collection id_field re_pattern
                       re_replace fields aggregate).2 = Raise e
     end).
Proof.
  intros Hready. split.
  - intros Hpat. apply (ext_pillar_store_calls mdb); [done|].
    by destruct Hpat as [-> | ->].
  - intros pattern -> Hne.
    assert (Hkey : lookup_key (Some pattern) re_replace minion_id
                   = re_sub pattern re_replace minion_id).
    { unfold lookup_key. cbn [truthy].
      destruct (String.eqb_spec pattern ""); [done|reflexivity]. }
    destruct (re_sub pattern re_replace minion_id) as [key|e] eqn:Hsub.
    + by apply (ext_pillar_store_calls mdb).
    + destruct (ext_pillar_key_error mdb e minion_id pillar collection id_field
                  (Some pattern) re_replace fields aggregate Hready Hkey)
        as (t0 & Hquiet & ->).
      by split.
Qed.

(** C6: the one query of a pipeline-strategy resolution is an aggregation
    whose stage sequence is the match stage [{id_field: key}] followed by
    the stages of [aggregate], all of them, unchanged and in the order
    given. *)
Theorem aggregate_stage_sequence mdb key minion_id pillar collection id_field
        re_pattern re_replace fields stages :
  store_ready mdb →
  lookup_key re_pattern re_replace minion_id = Return key →
  store_calls (ext_pillar minion_id pillar collection id_field re_pattern
                          re_replace fields (Some stages)).1
  = [Aggregate collection
               (VDict {[ "$match" := VDict {[ id_field := VText key ]} ]} :: stages)].
Proof.
  intros Hready Hkey.
  by rewrite (ext_pillar_store_calls mdb key).
Qed.

(** C7: when the aggregation of a pipeline-strategy resolution yields
    exactly one document, that document is the result. *)
Theorem aggregate_single_result mdb key results doc minion_id pillar
        collection id_field re_pattern re_replace fields stages :
  store_ready mdb →
  lookup_key re_pattern re_replace minion_id = Return key →
  db_aggregate mdb collection
    (VDict {[ "$match" := VDict {[ id_field := VText key ]} ]} :: stages)
  = Return results →
  cursor_list results = [doc] →
  (ext_pillar minion_id pillar collection id_field re_pattern re_replace
              fields (Some stages)).2 = Return (VDict doc).
Proof.
  intros Hready Hkey Hresults Hone.
  destruct (ext_pillar_aggregate mdb key minion_id pillar collection id_field
              re_pattern re_replace fields stages Hready Hkey) as (t0 & ->).
  cbn [snd]. by eapply get_aggregate_one.
Qed.

(** C9: the [pillar] argument is not used: two calls that differ only in
    it give the same result and the same trace. *)
Theorem pillar_argument_unused minion_id pillar pillar' collection id_field
        re_pattern re_replace fields aggregate :
  ext_pillar minion_id pillar collection id_field re_pattern re_replace
             fields aggregate
  = ext_pillar minion_id pillar' collection id_field re_pattern re_replace
               fields aggregate.
Proof. reflexivity. Qed.

(** C10: in the single-document strategy, whatever [fields] and [id_field]
    are, a found document that has a key ["_id"] is returned with that
    value replaced by its text, and a found document without ["_id"] is
    returned as it is. *)
Theorem find_one_id_as_text mdb key doc minion_id pillar collection id_field
        re_pattern re_replace fields :
  store_ready mdb →
  lookup_key re_pattern re_replace minion_id = Return key →
  db_find_one mdb collection {[ id_field := VText key ]} fields
  = Return (Some doc) →
  (ext_pillar minion_id pillar collection id_field re_pattern re_replace
              fields None).2
  = Return (VDict match doc !! "_id" with
                  | Some oid => <[ "_id" := VText (text_type py_str oid) ]> doc
                  | None => doc
                  end).
Proof.
  intros Hready Hkey Hdoc.
  rewrite (ext_pillar_find_one mdb key) by done.
  by apply get_find_one_found.
Qed.

End Resolution.

(** ** The in-memory store and the plain-text substitution *)

Lemma mem_store_ready colls :
  store_ready (mem_client colls) default_opts (mem_db colls).
Proof. eexists. split; [reflexivity|]. split; [reflexivity|]. done. Qed.

(** Where the text does not occur, nothing is replaced. *)
Lemma replace_all_absent text repl s :
  occurs text s = false → replace_all 0 text repl s = s.
Proof.
  induction s as [|c s IH]; [done|].
  cbn [occurs]. intros [Hhead Htail]%orb_false_iff.
  cbn [replace_all]. rewrite Hhead. f_equal. by apply IH.
Qed.

Lemma literal_sub_absent pattern text repl s :
  literal_of pattern = Some text →
  text ≠ "" →
  "\"%char ∉ String.list_ascii_of_string repl →
  occurs text s = false →
  literal_sub pattern repl s = Return s.
Proof.
  intros Hlit Htext Hrepl Habsent. unfold literal_sub. rewrite Hlit.
  rewrite bool_decide_eq_false_2 by done.
  destruct (String.eqb_spec text ""); [done|].
  by rewrite replace_all_absent.
Qed.

(** ** Worked examples *)

(** The end-to-end example: [web1.example.com] is trimmed to [web1], found
    in [vm] by name, and its [role] comes back with the identifier as
    text. *)
Example end_to_end_run :
  mem_ext_pillar store "web1.example.com" ∅ "vm" "name"
                 (Some "\.example\.com") "" (Some ["role"]) None
  = ([Log INFO "connecting to %s:%s for mongo ext_pillar" [VText "salt"; VInt 27017];
      Connect "salt" 27017;
      Log DEBUG "using database '%s'" [VText "salt"];
      Log INFO "ext_pillar.mongo: looking up pillar def for {'%s': '%s'} in mongo"
          [VText "name"; VText "web1"];
      FindOne "vm" {[ "name" := VText "web1" ]} (Some ["role"]);
      Log DEBUG "ext_pillar.mongo: found document, returning fields '%s'"
          [VList [VText "role"]]],
     Return (VDict {[ "_id" := VText "5f1d7f3c9d1e8a0012345678";
                      "role" := VText "web" ]})).
Proof. vm_compute. reflexivity. Qed.

(** With a user and a password configured the database is authenticated
    before the lookup; a client that cannot be created ends the call. *)
Example authenticated_run :
  ext_pillar scalar_str literal_sub (mem_client store)
             {| mongo_db := "salt"; mongo_host := "db.example.com";
                mongo_password := "secret"; mongo_port := 27017;
                mongo_user := "pillar" |}
             "nobody" ∅ "vm" "name" None "" None None
  = ([Log INFO "connecting to %s:%s for mongo ext_pillar"
          [VText "db.example.com"; VInt 27017];
      Connect "db.example.com" 27017;
      Log DEBUG "using database '%s'" [VText "salt"];
      Log DEBUG "authenticating as '%s'" [VText "pillar"];
      Authenticate "pillar" "secret";
      Log INFO "ext_pillar.mongo: looking up pillar def for {'%s': '%s'} in mongo"
          [VText "name"; VText "nobody"];
      FindOne "vm" {[ "name" := VText "nobody" ]} None;
      Log DEBUG "ext_pillar.mongo: no document found in collection %s" [VText "vm"]],
     Return (VDict ∅)).
Proof. vm_compute. reflexivity. Qed.

Example connection_failure_run :
  ext_pillar scalar_str literal_sub (λ _ _, Raise (ConnectionFailure "unreachable"))
             default_opts "web1" ∅ "vm" "name" None "" None None
  = ([Log INFO "connecting to %s:%s for mongo ext_pillar" [VText "salt"; VInt 27017];
      Connect "salt" 27017],
     Raise (ConnectionFailure "unreachable")).
Proof. reflexivity. Qed.

(** C1, where the pipeline gives two documents for [web1]: the aggregation
    answers [twin1; twin2], an error is logged, and the call returns [None],
    not the first document [twin1]. *)
Theorem many_results_return_none :
  db_aggregate (mem_db store) "twins"
    [VDict {[ "$match" := VDict {[ "name" := VText "web1" ]} ]}]
  = Return (CommandCursor [twin1; twin2])
  ∧ mem_ext_pillar store "web1" ∅ "twins" "name" None "" None (Some [])
    = ([Log INFO "connecting to %s:%s for mongo ext_pillar"
            [VText "salt"; VInt 27017];
        Connect "salt" 27017;
        Log DEBUG "using database '%s'" [VText "salt"];
        Log INFO "ext_pillar.mongo: looking up pillar def for {'%s': '%s'} in mongo"
            [VText "name"; VText "web1"];
        Aggregate "twins" [VDict {[ "$match" := VDict {[ "name" := VText "web1" ]} ]}];
        Log ERROR "ext_pillar.mongo: pipeline returned more than one result" []],
       Return VNone).
Proof. split; vm_compute; reflexivity. Qed.

(** C2, on the pipeline strategy: the one document that the pipeline gives
    for [web1] is returned with its native identifier, where the
    single-document strategy returns the same identifier as text. *)
Theorem aggregate_keeps_native_id :
  (mem_ext_pillar store "web1" ∅ "vm" "name" None "" None (Some [])).2
  = Return (VDict web1)
  ∧ web1 !! "_id" = Some (VObjectId "5f1d7f3c9d1e8a0012345678")
  ∧ (mem_ext_pillar store "web1" ∅ "vm" "name" None "" None None).2
    = Return (VDict (<[ "_id" := VText "5f1d7f3c9d1e8a0012345678" ]> web1)).
Proof. repeat split; vm_compute; reflexivity. Qed.

(** C3 on a minion that [vm] does not know, in both strategies. *)
Lemma no_match_gives_empty_mapping_witness :
  (mem_ext_pillar store "nobody" ∅ "vm" "name" None "" None None).2
  = Return (VDict ∅)
  ∧ (mem_ext_pillar store "nobody" ∅ "vm" "name" None "" None (Some [])).2
    = Return (VDict ∅).
Proof.
  destruct (no_match_gives_empty_mapping scalar_str literal_sub (mem_client store)
              default_opts (mem_db store) "nobody" "nobody" ∅ "vm" "name" None ""
              None (mem_store_ready store) eq_refl) as [Hfind Hpipe].
  split.
  - apply Hfind. vm_compute. reflexivity.
  - apply (Hpipe [] (CommandCursor [])); vm_compute; reflexivity.
Defined.

(** Counterexample to C5, a pattern that is present and empty: the
    substitution of the empty pattern by "-" in "ab" is "-a-b-", and the key
    looked up is not that one (it is "ab"). *)
Lemma empty_pattern_not_substituted :
  literal_sub "" "-" "ab" = Return "-a-b-"
  ∧ store_calls (mem_ext_pillar store "ab" ∅ "pillar" "_id" (Some "") "-" None None).1
    ≠ [FindOne "pillar" {[ "_id" := VText "-a-b-" ]} None].
Proof.
  split; [reflexivity|]. intros Hcalls.
  apply (f_equal (λ calls, match calls with
                           | [FindOne _ filter _] => filter !! "_id"
                           | _ => None
                           end)) in Hcalls.
  vm_compute in Hcalls. discriminate.
Qed.

(** C5 (amended): without a pattern, with a pattern that trims the domain,
    and with the same pattern on an id it does not match. *)
Lemma lookup_key_sent_to_store_witness :
  store_calls (mem_ext_pillar store "web1" ∅ "vm" "name" None "" None None).1
  = [FindOne "vm" {[ "name" := VText "web1" ]} None]
  ∧ store_calls (mem_ext_pillar store "web1.example.com" ∅ "vm" "name"
                                (Some "\.example\.com") "" None None).1
    = [FindOne "vm" {[ "name" := VText "web1" ]} None]
  ∧ store_calls (mem_ext_pillar store "db1" ∅ "vm" "name"
                                (Some "\.example\.com") "" None None).1
    = [FindOne "vm" {[ "name" := VText "db1" ]} None].
Proof.
  split; [|split].
  - apply (proj1 (lookup_key_sent_to_store scalar_str literal_sub (mem_client store)
                    default_opts (mem_db store) "web1" ∅ "vm" "name" None ""
                    None None (mem_store_ready store))).
    by left.
  - apply (proj2 (lookup_key_sent_to_store scalar_str literal_sub (mem_client store)
                    default_opts (mem_db store) "web1.example.com" ∅ "vm" "name"
                    (Some "\.example\.com") "" None None (mem_store_ready store))
                 "\.example\.com" eq_refl).
    discriminate.
  - apply (proj2 (lookup_key_sent_to_store scalar_str literal_sub (mem_client store)
                    default_opts (mem_db store) "db1" ∅ "vm" "name"
                    (Some "\.example\.com") "" None None (mem_store_ready store))
                 "\.example\.com" eq_refl).
    discriminate.
Defined.

(** C6 with three caller stages, one of them given twice. *)
Lemma aggregate_stage_sequence_witness :
  store_calls (mem_ext_pillar store "web1.example.com" ∅ "vm" "name"
                 (Some "\.example\.com") "" None
                 (Some [VDict {[ "$match" := VDict {[ "role" := VText "web" ]} ]};
                        VDict {[ "$project" := VDict {[ "role" := VInt 1 ]} ]};
                        VDict {[ "$match" := VDict {[ "role" := VText "web" ]} ]}])).1
  = [Aggregate "vm"
       [VDict {[ "$match" := VDict {[ "name" := VText "web1" ]} ]};
        VDict {[ "$match" := VDict {[ "role" := VText "web" ]} ]};
        VDict {[ "$project" := VDict {[ "role" := VInt 1 ]} ]};
        VDict {[ "$match" := VDict {[ "role" := VText "web" ]} ]}]].
Proof.
  apply (aggregate_stage_sequence scalar_str literal_sub (mem_client store)
           default_opts (mem_db store) "web1").
  - apply mem_store_ready.
  - reflexivity.
Defined.

(** C7 on [vm]: one document is named [web1]. *)
Lemma aggregate_single_result_witness :
  (mem_ext_pillar store "web1" ∅ "vm" "name" None "" None
                  (Some [VDict {[ "$match" := VDict {[ "role" := VText "web" ]} ]}])).2
  = Return (VDict web1).
Proof.
  apply (aggregate_single_result scalar_str literal_sub (mem_client store)
           default_opts (mem_db store) "web1" (CommandCursor [web1])).
  - apply mem_store_ready.
  - reflexivity.
  - vm_compute. reflexivity.
  - reflexivity.
Defined.

(** C8, with [fields = ["a", "b"]] on a document keyed on the minion id:
    [find_one] answers the two fields and [_id], and the mapping returned
    has the key ["_id"] besides ["a"] and ["b"]. *)
Theorem projection_returns_id_key :
  db_find_one (mem_db store) "pillar" {[ "_id" := VText "minion1" ]}
              (Some ["a"; "b"])
  = Return (Some {[ "_id" := VText "minion1"; "a" := VInt 1; "b" := VInt 2 ]})
  ∧ (mem_ext_pillar store "minion1" ∅ "pillar" "_id" None ""
                    (Some ["a"; "b"]) None).2
    = Return (VDict {[ "_id" := VText "minion1"; "a" := VInt 1; "b" := VInt 2 ]}).
Proof. split; vm_compute; reflexivity. Qed.

(** C10 with a projection and a lookup by [name]. *)
Lemma find_one_id_as_text_witness :
  (mem_ext_pillar store "web1.example.com" ∅ "vm" "name"
                  (Some "\.example\.com") "" (Some ["role"]) None).2
  = Return (VDict (<[ "_id" := VText "5f1d7f3c9d1e8a0012345678" ]>
                     {[ "_id" := VObjectId "5f1d7f3c9d1e8a0012345678";
                        "role" := VText "web" ]})).
Proof.
  etrans.
  - apply (find_one_id_as_text scalar_str literal_sub (mem_client store)
             default_opts (mem_db store) "web1"
             {[ "_id" := VObjectId "5f1d7f3c9d1e8a0012345678"; "role" := VText "web" ]}).
    + apply mem_store_ready.
    + reflexivity.
    + vm_compute. reflexivity.
  - vm_compute. reflexivity.
Defined.


(** ** Whole runs: connection, authentication, errors and diagnostics *)

Section Runs.

Variable py_str : value → string.
Variable re_sub : string → string → string → outcome string.
Variable pymongo_MongoClient : string → Z → outcome MongoClient.
Variable opts : options.

Local Abbreviation ext_pillar := (ext_pillar py_str re_sub pymongo_MongoClient opts).
Local Abbreviation store_ready := (store_ready pymongo_MongoClient opts).
Local Abbreviation lookup_key := (lookup_key re_sub).
Local Abbreviation get_find_one := (get_find_one py_str).

(** The run of a resolution whose store is ready, with its trace in
    full. *)
Lemma ext_pillar_trace mdb key minion_id pillar collection id_field
      re_pattern re_replace fields aggregate :
  store_ready mdb →
  lookup_key re_pattern re_replace minion_id = Return key →
  ext_pillar minion_id pillar collection id_field re_pattern re_replace
             fields aggregate
  = bind (prologue opts ++ [lookup_record id_field key], Return tt) (λ _,
      match aggregate with
      | None => get_find_one mdb collection id_field key fields
      | Some stages => get_aggregate mdb collection id_field key stages
      end).
Proof.
  intros (conn & Hconn & Hdb & Hauth) Hkey.
  unfold ext_pillar, get_connection, authenticate_connection, prologue.
  rewrite Hconn. cbn [bind log call ret app].
  unfold lift at 1. rewrite Hdb. cbn [bind log call ret app].
  unfold lookup_key in Hkey.
  destruct (truthy (VText (mongo_user opts)) && truthy (VText (mongo_password opts)));
    [rewrite (Hauth eq_refl)|];
    (destruct re_pattern as [pattern|];
     [destruct (truthy (VText pattern))|];
     [unfold lift; rewrite Hkey | injection Hkey as -> | injection Hkey as ->]).
  all: cbn [bind log call ret app].
  all: destruct (match aggregate with Some _ => _ | None => _ end) as [t r].
  all: reflexivity.
Qed.

(** Every run is of one of five kinds: the client cannot be created, the
    database cannot be selected, the authentication is refused, the
    substitution raises, or the store is ready and the lookup key known. *)
Lemma ext_pillar_cases minion_id pillar collection id_field re_pattern
      re_replace fields aggregate :
  (∃ e,
     pymongo_MongoClient (mongo_host opts) (mongo_port opts) = Raise e
     ∧ ext_pillar minion_id pillar collection id_field re_pattern re_replace
                  fields aggregate
       = ([Log INFO "connecting to %s:%s for mongo ext_pillar"
               [VText (mongo_host opts); VInt (mongo_port opts)];
           Connect (mongo_host opts) (mongo_port opts)], Raise e))
  ∨ (∃ conn e,
       pymongo_MongoClient (mongo_host opts) (mongo_port opts) = Return conn
       ∧ conn_getitem conn (mongo_db opts) = Raise e
       ∧ ext_pillar minion_id pillar collection id_field re_pattern re_replace
                    fields aggregate
         = ([Log INFO "connecting to %s:%s for mongo ext_pillar"
                 [VText (mongo_host opts); VInt (mongo_port opts)];
             Connect (mongo_host opts) (mongo_port opts);
             Log DEBUG "using database '%s'" [VText (mongo_db opts)]], Raise e))
  ∨ (∃ conn mdb e,
       pymongo_MongoClient (mongo_host opts) (mongo_port opts) = Return conn
       ∧ conn_getitem conn (mongo_db opts) = Return mdb
       ∧ truthy (VText (mongo_user opts)) && truthy (VText (mongo_password opts)) = true
       ∧ db_authenticate mdb (mongo_user opts) (mongo_password opts) = Raise e
       ∧ ext_pillar minion_id pillar collection id_field re_pattern re_replace
                    fields aggregate = (prologue opts, Raise e))
  ∨ (∃ mdb e,
       store_ready mdb
       ∧ lookup_key re_pattern re_replace minion_id = Raise e
       ∧ ext_pillar minion_id pillar collection id_field re_pattern re_replace
                    fields aggregate = (prologue opts, Raise e))
  ∨ (∃ mdb key,
       store_ready mdb
       ∧ lookup_key re_pattern re_replace minion_id = Return key
       ∧ ext_pillar minion_id pillar collection id_field re_pattern re_replace
                    fields aggregate
         = bind (prologue opts ++ [lookup_record id_field key], Return tt) (λ _,
             match aggregate with
             | None => get_find_one mdb collection id_field key fields
             | Some stages => get_aggregate mdb collection id_field key stages
             end)).
Proof.
  destruct (pymongo_MongoClient (mongo_host opts) (mongo_port opts))
    as [conn|e] eqn:Hconn.
  2: { left. exists e. split; [done|].
       unfold ext_pillar, get_connection. by rewrite Hconn. }
  right.
  destruct (conn_getitem conn (mongo_db opts)) as [mdb|e] eqn:Hdb.
  2: { left. exists conn, e. repeat split; try done.
       unfold ext_pillar, get_connection.
       rewrite Hconn. cbn [bind log call ret app].
       unfold lift at 1. by rewrite Hdb. }
  right.
  destruct (truthy (VText (mongo_user opts)) && truthy (VText (mongo_password opts)))
    eqn:Hcred.
  - destruct (db_authenticate mdb (mongo_user opts) (mongo_password opts))
      as [[]|e] eqn:Hauth.
    2: { left. exists conn, mdb, e. repeat split; try done.
         unfold ext_pillar, get_connection, authenticate_connection, prologue.
         rewrite Hconn, Hcred. cbn [bind log call ret app].
         unfold lift at 1. rewrite Hdb. cbn [bind log call ret app].
         by rewrite Hauth. }
    right.
    assert (Hready : store_ready mdb) by (exists conn; done).
    destruct (lookup_key re_pattern re_replace minion_id) as [key|e] eqn:Hkey.
    + right. exists mdb, key.
      repeat split; try done. by apply ext_pillar_trace.
    + left. exists mdb, e.
      repeat split; try done.
      unfold ext_pillar, get_connection, authenticate_connection, prologue.
      rewrite Hconn, Hcred. cbn [bind log call ret app].
      unfold lift at 1. rewrite Hdb. cbn [bind log call ret app].
      rewrite Hauth.
      unfold lookup_key in Hkey.
      destruct re_pattern as [pattern|]; [|done].
      destruct (truthy (VText pattern)); [|done].
      unfold lift. by rewrite Hkey.
  - right.
    assert (Hready : store_ready mdb).
    { exists conn. repeat split; try done. by rewrite Hcred. }
    destruct (lookup_key re_pattern re_replace minion_id) as [key|e] eqn:Hkey.
    + right. exists mdb, key.
      repeat split; try done. by apply ext_pillar_trace.
    + left. exists mdb, e.
      repeat split; try done.
      unfold ext_pillar, get_connection, authenticate_connection, prologue.
      rewrite Hconn, Hcred. cbn [bind log call ret app].
      unfold lift at 1. rewrite Hdb. cbn [bind log call ret app].
      unfold lookup_key in Hkey.
      destruct re_pattern as [pattern|]; [|done].
      destruct (truthy (VText pattern)); [|done].
      unfold lift. by rewrite Hkey.
Qed.

(** The two strategies, answer by answer. *)
Lemma get_find_one_run mdb collection id_field key fields :
  get_find_one mdb collection id_field key fields
  = match db_find_one mdb collection {[ id_field := VText key ]} fields with
    | Raise e =>
        ([FindOne collection {[ id_field := VText key ]} fields], Raise e)
    | Return None =>
        ([FindOne collection {[ id_field := VText key ]} fields;
          not_found_record collection], Return (VDict ∅))
    | Return (Some doc) =>
        if truthy (VDict doc) then
          ([FindOne collection {[ id_field := VText key ]} fields;
            found_record fields],
           Return (VDict match doc !! "_id" with
                         | Some oid => <[ "_id" := VText (text_type py_str oid) ]> doc
                         | None => doc
                         end))
        else
          ([FindOne collection {[ id_field := VText key ]} fields;
            not_found_record collection], Return (VDict ∅))
    end.
Proof.
  unfold get_find_one, no_document_found, found_record, not_found_record, call.
  destruct (db_find_one _ _ _ _) as [[doc|]|e]; cbn [bind]; try reflexivity.
  destruct (truthy (VDict doc)); [|reflexivity].
  destruct (truthy_opt _ _), (doc !! "_id"); reflexivity.
Qed.

Lemma get_aggregate_run mdb collection id_field key stages :
  get_aggregate mdb collection id_field key stages
  = let query :=
      Aggregate collection
        (VDict {[ "$match" := VDict {[ id_field := VText key ]} ]} :: stages) in
    match db_aggregate mdb collection
            (VDict {[ "$match" := VDict {[ id_field := VText key ]} ]} :: stages) with
    | Raise e => ([query], Raise e)
    | Return results =>
        if cursor_truthy results then
          match cursor_list results with
          | [] => ([query; Log ERROR "ext_pillar.mongo: pipeline returned no results" []],
                   Return (VDict ∅))
          | [doc] => ([query], Return (VDict doc))
          | _ => ([query;
                   Log ERROR "ext_pillar.mongo: pipeline returned more than one result" []],
                  Return VNone)
          end
        else
          ([query; Log DEBUG "ext_pillar.mongo: no response from pipeline %s"
                       [VText collection]],
           Return (VDict ∅))
    end.
Proof.
  unfold get_aggregate, call. rewrite foldl_append. cbn [app].
  destruct (db_aggregate _ _ _) as [results|e]; cbn [bind]; [|reflexivity].
  destruct (cursor_truthy results); [|reflexivity].
  by destruct (cursor_list results) as [|doc [|doc' docs]].
Qed.

Lemma external_calls_app (t1 t2 : trace) :
  external_calls (t1 ++ t2) = external_calls t1 ++ external_calls t2.
Proof. apply List.filter_app. Qed.

Lemma log_levels_app (t1 t2 : trace) :
  log_levels (t1 ++ t2) = log_levels t1 ++ log_levels t2.
Proof. apply flat_map_app. Qed.

Lemma external_calls_prologue :
  external_calls (prologue opts)
  = Connect (mongo_host opts) (mongo_port opts)
    :: (if truthy (VText (mongo_user opts)) && truthy (VText (mongo_password opts))
        then [Authenticate (mongo_user opts) (mongo_password opts)]
        else []).
Proof. unfold prologue. by destruct (_ && _). Qed.

Lemma external_calls_strategy mdb collection id_field key fields aggregate :
  external_calls match aggregate with
                 | None => get_find_one mdb collection id_field key fields
                 | Some stages => get_aggregate mdb collection id_field key stages
                 end.1
  = [query_for collection id_field key fields aggregate].
Proof.
  destruct aggregate as [stages|]; cbn [query_for].
  - rewrite get_aggregate_run. cbn zeta.
    destruct (db_aggregate _ _ _) as [results|e]; [|reflexivity].
    destruct (cursor_truthy results); [|reflexivity].
    by destruct (cursor_list results) as [|doc [|doc' docs]].
  - rewrite get_find_one_run. unfold found_record, not_found_record.
    destruct (db_find_one _ _ _ _) as [[doc|]|e]; try reflexivity.
    destruct (truthy (VDict doc)); [|reflexivity].
    by destruct (truthy_opt _ _).
Qed.

(** The calls that a run makes on pymongo, in order: one connection; then,
    if the database is selected and a user and a password are configured,
    one authentication; then, unless something raised before, one query. *)
Lemma external_calls_of_run minion_id pillar collection id_field re_pattern
      re_replace fields aggregate :
  external_calls (ext_pillar minion_id pillar collection id_field re_pattern
                             re_replace fields aggregate).1
  = let query :=
      match lookup_key re_pattern re_replace minion_id with
      | Return key => [query_for collection id_field key fields aggregate]
      | Raise _ => []
      end in
    Connect (mongo_host opts) (mongo_port opts)
    :: match pymongo_MongoClient (mongo_host opts) (mongo_port opts) with
       | Raise _ => []
       | Return conn =>
           match conn_getitem conn (mongo_db opts) with
           | Raise _ => []
           | Return mdb =>
               if truthy (VText (mongo_user opts))
                  && truthy (VText (mongo_password opts))
               then Authenticate (mongo_user opts) (mongo_password opts)
                    :: match db_authenticate mdb (mongo_user opts)
                               (mongo_password opts) with
                       | Return _ => query
                       | Raise _ => []
                       end
               else query
           end
       end.
Proof.
  cbn zeta.
  destruct (ext_pillar_cases minion_id pillar collection id_field re_pattern
              re_replace fields aggregate)
    as [(e & Hconn & ->)
       | [(conn & e & Hconn & Hdb & ->)
         | [(conn & mdb & e & Hconn & Hdb & Hcred & Hauth & ->)
           | [(mdb & e & (conn & Hconn & Hdb & Hauth) & Hkey & ->)
             | (mdb & key & (conn & Hconn & Hdb & Hauth) & Hkey & ->)]]]].
  - by rewrite Hconn.
  - by rewrite Hconn, Hdb.
  - cbn [fst]. by rewrite external_calls_prologue, Hconn, Hdb, Hcred, Hauth.
  - cbn [fst]. rewrite external_calls_prologue, Hconn, Hdb, Hkey.
    destruct (_ && _); [by rewrite Hauth|done].
  - rewrite bind_fst_snd. cbn [fst].
    rewrite !external_calls_app, external_calls_prologue, external_calls_strategy.
    rewrite Hconn, Hdb, Hkey.
    destruct (_ && _); [by rewrite Hauth|done].
Qed.

Lemma filter_external_calls (keep : event → bool) (t : trace) :
  (∀ ev, keep ev = true → is_log ev = false) →
  List.filter keep t = List.filter keep (external_calls t).
Proof.
  intros Hkeep. induction t as [|ev t IH]; [done|].
  cbn. destruct (keep ev) eqn:Hev.
  - rewrite (Hkeep ev Hev). cbn. rewrite Hev. by f_equal.
  - destruct (is_log ev); cbn; [done|]. by rewrite Hev.
Qed.

Lemma ext_pillar_outcome mdb key minion_id pillar collection id_field
      re_pattern re_replace fields aggregate :
  store_ready mdb →
  lookup_key re_pattern re_replace minion_id = Return key →
  ext_pillar minion_id pillar collection id_field re_pattern re_replace
             fields aggregate
  = let strategy :=
      match aggregate with
      | None => get_find_one mdb collection id_field key fields
      | Some stages => get_aggregate mdb collection id_field key stages
      end in
    (prologue opts ++ [lookup_record id_field key] ++ strategy.1, strategy.2).
Proof.
  intros Hready Hkey.
  rewrite (ext_pillar_trace mdb key) by done.
  rewrite bind_fst_snd. cbn zeta. by rewrite <- app_assoc.
Qed.

Lemma nonempty_results_truthy (results : aggregate_result) :
  cursor_list results ≠ [] → cursor_truthy results = true.
Proof.
  destruct results as [docs|docs]; cbn; [done|].
  intros Hne. by rewrite bool_decide_eq_false_2.
Qed.

Ltac levels :=
  repeat first [ apply Forall_nil_2 | apply Forall_cons_2; [naive_solver|] ].

(** *** Errors are passed on *)

(** X1: when the client cannot be created, [ext_pillar] raises that error
    right after the connection attempt: no database is selected, nothing
    is authenticated or queried. *)
Theorem connection_error_propagates e minion_id pillar collection id_field
        re_pattern re_replace fields aggregate :
  pymongo_MongoClient (mongo_host opts) (mongo_port opts) = Raise e →
  ext_pillar minion_id pillar collection id_field re_pattern re_replace
             fields aggregate
  = ([Log INFO "connecting to %s:%s for mongo ext_pillar"
          [VText (mongo_host opts); VInt (mongo_port opts)];
      Connect (mongo_host opts) (mongo_port opts)],
     Raise e).
Proof.
  intros Hconn. unfold ext_pillar, get_connection. by rewrite Hconn.
Qed.

(** X4: when a user and a password are configured and the authentication
    raises, [ext_pillar] raises that error; the minion id is not looked at
    and no query is made. *)
Theorem authentication_error_propagates conn mdb e minion_id pillar collection
        id_field re_pattern re_replace fields aggregate :
  pymongo_MongoClient (mongo_host opts) (mongo_port opts) = Return conn →
  conn_getitem conn (mongo_db opts) = Return mdb →
  truthy (VText (mongo_user opts)) && truthy (VText (mongo_password opts)) = true →
  db_authenticate mdb (mongo_user opts) (mongo_password opts) = Raise e →
  ext_pillar minion_id pillar collection id_field re_pattern re_replace
             fields aggregate
  = ([Log INFO "connecting to %s:%s for mongo ext_pillar"
          [VText (mongo_host opts); VInt (mongo_port opts)];
      Connect (mongo_host opts) (mongo_port opts);
      Log DEBUG "using database '%s'" [VText (mongo_db opts)];
      Log DEBUG "authenticating as '%s'" [VText (mongo_user opts)];
      Authenticate (mongo_user opts) (mongo_password opts)],
     Raise e).
Proof.
  intros Hconn Hdb Hcred Hauth.
  unfold ext_pillar, get_connection, authenticate_connection.
  rewrite Hconn, Hcred. cbn [bind log call ret app].
  unfold lift at 1. rewrite Hdb. cbn [bind log call ret app].
  by rewrite Hauth.
Qed.

(** X5: an error raised by [find_one] is raised by [ext_pillar], with no
    record after the query. *)
Theorem find_one_error_propagates mdb key e minion_id pillar collection
        id_field re_pattern re_replace fields :
  store_ready mdb →
  lookup_key re_pattern re_replace minion_id = Return key →
  db_find_one mdb collection {[ id_field := VText key ]} fields = Raise e →
  ext_pillar minion_id pillar collection id_field re_pattern re_replace
             fields None
  = (prologue opts
     ++ [lookup_record id_field key;
         FindOne collection {[ id_field := VText key ]} fields],
     Raise e).
Proof.
  intros Hready Hkey Herr.
  rewrite (ext_pillar_outcome mdb key) by done. cbn zeta.
  by rewrite get_find_one_run, Herr.
Qed.

(** X6: an error raised by [aggregate], as for a stage the store does not
    accept, is raised by [ext_pillar], with no record after the query. *)
Theorem aggregate_error_propagates mdb key e minion_id pillar collection
        id_field re_pattern re_replace fields stages :
  store_ready mdb →
  lookup_key re_pattern re_replace minion_id = Return key →
  db_aggregate mdb collection
    (VDict {[ "$match" := VDict {[ id_field := VText key ]} ]} :: stages)
  = Raise e →
  ext_pillar minion_id pillar collection id_field re_pattern re_replace
             fields (Some stages)
  = (prologue opts
     ++ [lookup_record id_field key;
         Aggregate collection
           (VDict {[ "$match" := VDict {[ id_field := VText key ]} ]} :: stages)],
     Raise e).
Proof.
  intros Hready Hkey Herr.
  rewrite (ext_pillar_outcome mdb key) by done. cbn zeta.
  by rewrite get_aggregate_run, Herr.
Qed.

(** *** The calls on pymongo *)

(** X2: every call of [ext_pillar] makes exactly one connection attempt, to
    the configured host and port, whatever happens next. *)
Theorem connects_exactly_once minion_id pillar collection id_field re_pattern
        re_replace fields aggregate :
  connect_calls (ext_pillar minion_id pillar collection id_field re_pattern
                            re_replace fields aggregate).1
  = [Connect (mongo_host opts) (mongo_port opts)].
Proof.
  unfold connect_calls.
  rewrite filter_external_calls by (by intros []).
  rewrite external_calls_of_run. cbn zeta.
  destruct (pymongo_MongoClient _ _) as [conn|e]; [|reflexivity].
  destruct (conn_getitem _ _) as [mdb|e]; [|reflexivity].
  destruct (_ && _); [destruct (db_authenticate _ _ _); [|reflexivity]|];
    (destruct (lookup_key _ _ _); [|reflexivity]).
  all: by destruct aggregate.
Qed.

(** X3: the database is authenticated exactly when the client was created,
    the database [mongo.db] was selected, and both [mongo.user] and
    [mongo.password] are non-empty; and then once, with those two values. *)
Theorem authenticates_iff_credentials minion_id pillar collection id_field
        re_pattern re_replace fields aggregate :
  authenticate_calls (ext_pillar minion_id pillar collection id_field re_pattern
                                 re_replace fields aggregate).1
  = match pymongo_MongoClient (mongo_host opts) (mongo_port opts) with
    | Return conn =>
        match conn_getitem conn (mongo_db opts) with
        | Return _ =>
            if truthy (VText (mongo_user opts))
               && truthy (VText (mongo_password opts))
            then [Authenticate (mongo_user opts) (mongo_password opts)]
            else []
        | Raise _ => []
        end
    | Raise _ => []
    end.
Proof.
  unfold authenticate_calls.
  rewrite filter_external_calls by (by intros []).
  rewrite external_calls_of_run. cbn zeta.
  destruct (pymongo_MongoClient _ _) as [conn|e]; [|reflexivity].
  destruct (conn_getitem _ _) as [mdb|e]; [|reflexivity].
  destruct (_ && _); [destruct (db_authenticate _ _ _); [|reflexivity]|];
    (destruct (lookup_key _ _ _); [|reflexivity]).
  all: by destruct aggregate.
Qed.

(** X7: a call of [ext_pillar] never sends more than one query: either none
    (something raised before), or the one query of the chosen strategy, on
    the requested collection and with the lookup key. *)
Theorem at_most_one_query minion_id pillar collection id_field re_pattern
        re_replace fields aggregate :
  store_calls (ext_pillar minion_id pillar collection id_field re_pattern
                          re_replace fields aggregate).1 = []
  ∨ ∃ key,
      lookup_key re_pattern re_replace minion_id = Return key
      ∧ store_calls (ext_pillar minion_id pillar collection id_field re_pattern
                                re_replace fields aggregate).1
        = [query_for collection id_field key fields aggregate].
Proof.
  unfold store_calls.
  rewrite filter_external_calls by (by intros []).
  rewrite external_calls_of_run. cbn zeta.
  destruct (pymongo_MongoClient _ _) as [conn|e]; [|by left].
  destruct (conn_getitem _ _) as [mdb|e]; [|by left].
  destruct (_ && _); [destruct (db_authenticate _ _ _); [|by left]|];
    (destruct (lookup_key _ _ _) as [key|e']; [|by left]).
  all: right; exists key; split; [done|]; by destruct aggregate.
Qed.

(** X8: with the store ready and the lookup key known, the calls on pymongo
    are, in this order: the connection, the authentication if a user and a
    password are configured, and the query. *)
Theorem external_calls_in_order mdb key minion_id pillar collection id_field
        re_pattern re_replace fields aggregate :
  store_ready mdb →
  lookup_key re_pattern re_replace minion_id = Return key →
  external_calls (ext_pillar minion_id pillar collection id_field re_pattern
                             re_replace fields aggregate).1
  = Connect (mongo_host opts) (mongo_port opts)
    :: (if truthy (VText (mongo_user opts)) && truthy (VText (mongo_password opts))
        then [Authenticate (mongo_user opts) (mongo_password opts)]
        else [])
    ++ [query_for collection id_field key fields aggregate].
Proof.
  intros (conn & Hconn & Hdb & Hauth) Hkey.
  rewrite external_calls_of_run. cbn zeta. rewrite Hconn, Hdb, Hkey.
  destruct (_ && _); [by rewrite Hauth|done].
Qed.

(** X18: with the store ready and the lookup key known, the trace is the
    prologue, then the record that shows the field and the key looked up,
    then the query with that same key, then records only. *)
Theorem lookup_logged_before_query mdb key minion_id pillar collection id_field
        re_pattern re_replace fields aggregate :
  store_ready mdb →
  lookup_key re_pattern re_replace minion_id = Return key →
  ∃ t,
    (ext_pillar minion_id pillar collection id_field re_pattern re_replace
                fields aggregate).1
    = prologue opts
      ++ [lookup_record id_field key;
          query_for collection id_field key fields aggregate]
      ++ t
    ∧ external_calls t = [].
Proof.
  intros Hready Hkey.
  rewrite (ext_pillar_outcome mdb key) by done. cbn zeta. cbn [fst].
  destruct aggregate as [stages|]; cbn [query_for].
  - rewrite get_aggregate_run. cbn zeta.
    destruct (db_aggregate _ _ _) as [results|e]; [|by exists []].
    destruct (cursor_truthy results); [|by eexists [_]].
    destruct (cursor_list results) as [|doc [|doc' docs]];
      [by eexists [_] | by exists [] | by eexists [_]].
  - rewrite get_find_one_run. unfold found_record, not_found_record.
    destruct (db_find_one _ _ _ _) as [[doc|]|e];
      [|by eexists [_] | by exists []].
    destruct (truthy (VDict doc)); [|by eexists [_]].
    destruct (truthy_opt _ _); by eexists [_].
Qed.

(** *** What is returned *)

(** X9: in the single-document strategy a call that returns, returns a
    mapping: never [None], never another kind of value. *)
Theorem find_one_returns_mapping t v minion_id pillar collection id_field
        re_pattern re_replace fields :
  ext_pillar minion_id pillar collection id_field re_pattern re_replace
             fields None = (t, Return v) →
  ∃ doc, v = VDict doc.
Proof.
  destruct (ext_pillar_cases minion_id pillar collection id_field re_pattern
              re_replace fields None)
    as [(e & _ & ->)
       | [(conn & e & _ & _ & ->)
         | [(conn & mdb & e & _ & _ & _ & _ & ->)
           | [(mdb & e & _ & _ & ->)
             | (mdb & key & _ & _ & ->)]]]]; try discriminate.
  rewrite bind_fst_snd, get_find_one_run.
  destruct (db_find_one _ _ _ _) as [[doc|]|e]; cbn [fst snd].
  - destruct (truthy (VDict doc)); intros [= _ <-]; by eexists.
  - intros [= _ <-]. by eexists.
  - discriminate.
Qed.

(** X10: in the pipeline strategy, with the store ready and the aggregation
    answered, the call returns [None] exactly when the aggregation has more
    than one document. *)
Theorem aggregate_none_iff_many mdb key results minion_id pillar collection
        id_field re_pattern re_replace fields stages :
  store_ready mdb →
  lookup_key re_pattern re_replace minion_id = Return key →
  db_aggregate mdb collection
    (VDict {[ "$match" := VDict {[ id_field := VText key ]} ]} :: stages)
  = Return results →
  (ext_pillar minion_id pillar collection id_field re_pattern re_replace
              fields (Some stages)).2 = Return VNone
  ↔ (1 < length (cursor_list results))%nat.
Proof.
  intros Hready Hkey Hresults.
  rewrite (ext_pillar_outcome mdb key) by done. cbn zeta. cbn [snd].
  rewrite get_aggregate_run. cbn zeta. rewrite Hresults.
  destruct (cursor_list results) as [|doc [|doc' docs]] eqn:Hdocs.
  - destruct (cursor_truthy results); cbn; split; (discriminate || lia).
  - destruct (cursor_truthy results); cbn; split; (discriminate || lia).
  - rewrite nonempty_results_truthy by (by rewrite Hdocs).
    cbn. split; [lia|done].
Qed.

(** X11: a found document whose [_id] is already text, as when documents
    are keyed on the minion id, is returned exactly as [find_one] gave
    it. *)
Theorem text_id_document_unchanged mdb key doc id minion_id pillar collection
        id_field re_pattern re_replace fields :
  store_ready mdb →
  lookup_key re_pattern re_replace minion_id = Return key →
  db_find_one mdb collection {[ id_field := VText key ]} fields
  = Return (Some doc) →
  doc !! "_id" = Some (VText id) →
  (ext_pillar minion_id pillar collection id_field re_pattern re_replace
              fields None).2 = Return (VDict doc).
Proof.
  intros Hready Hkey Hdoc Hid.
  rewrite (ext_pillar_outcome mdb key) by done. cbn zeta. cbn [snd].
  rewrite get_find_one_run, Hdoc.
  destruct (truthy (VDict doc)) eqn:Hfull.
  - cbn [snd]. rewrite Hid. cbn [text_type]. by rewrite insert_id.
  - cbn [truthy] in Hfull. apply negb_false_iff, bool_decide_eq_true in Hfull.
    subst doc. by rewrite lookup_empty in Hid.
Qed.

(** X12: whatever document is found, the result holds under every key
    other than ["_id"] exactly what the found document holds there, and it
    has ["_id"] if and only if the found document has. *)
Theorem find_one_other_fields_unchanged mdb key doc minion_id pillar collection
        id_field re_pattern re_replace fields :
  store_ready mdb →
  lookup_key re_pattern re_replace minion_id = Return key →
  db_find_one mdb collection {[ id_field := VText key ]} fields
  = Return (Some doc) →
  ∃ result,
    (ext_pillar minion_id pillar collection id_field re_pattern re_replace
                fields None).2 = Return (VDict result)
    ∧ (∀ k, k ≠ "_id" → result !! k = doc !! k)
    ∧ (is_Some (result !! "_id") ↔ is_Some (doc !! "_id")).
Proof.
  intros Hready Hkey Hdoc.
  rewrite (ext_pillar_outcome mdb key) by done. cbn zeta. cbn [snd].
  rewrite get_find_one_run, Hdoc.
  destruct (truthy (VDict doc)) eqn:Hfull; cbn [snd].
  - eexists. split; [reflexivity|].
    destruct (doc !! "_id") as [oid|] eqn:Hid.
    + split.
      * intros k Hk. by rewrite lookup_insert_ne.
      * rewrite lookup_insert_eq. split; by eexists.
    + split; [done|]. by rewrite Hid.
  - cbn [truthy] in Hfull. apply negb_false_iff, bool_decide_eq_true in Hfull.
    subst doc. by exists ∅.
Qed.

(** *** The records of each outcome *)

(** X13: a document that comes back empty is handled as no document at all:
    whether [find_one] answers [None] or an empty mapping, the run is the
    same, with the record "no document found" and an empty result. *)
Theorem empty_document_is_not_found mdb key minion_id pillar collection
        id_field re_pattern re_replace fields :
  store_ready mdb →
  lookup_key re_pattern re_replace minion_id = Return key →
  db_find_one mdb collection {[ id_field := VText key ]} fields = Return None
  ∨ db_find_one mdb collection {[ id_field := VText key ]} fields
    = Return (Some ∅) →
  ext_pillar minion_id pillar collection id_field re_pattern re_replace
             fields None
  = (prologue opts
     ++ [lookup_record id_field key;
         FindOne collection {[ id_field := VText key ]} fields;
         Log DEBUG "ext_pillar.mongo: no document found in collection %s"
             [VText collection]],
     Return (VDict ∅)).
Proof.
  intros Hready Hkey Hnone.
  rewrite (ext_pillar_outcome mdb key) by done. cbn zeta.
  rewrite get_find_one_run.
  by destruct Hnone as [-> | ->].
Qed.

(** X14: when a non-empty document is found, the one record after the
    query names the fields if [fields] is a non-empty list, and says "whole
    doc" if [fields] is absent or is the empty list. *)
Theorem found_document_record mdb key doc minion_id pillar collection id_field
        re_pattern re_replace fields :
  store_ready mdb →
  lookup_key re_pattern re_replace minion_id = Return key →
  db_find_one mdb collection {[ id_field := VText key ]} fields
  = Return (Some doc) →
  doc ≠ ∅ →
  (ext_pillar minion_id pillar collection id_field re_pattern re_replace
              fields None).1
  = prologue opts
    ++ [lookup_record id_field key;
        FindOne collection {[ id_field := VText key ]} fields;
        match fields with
        | Some (name :: names) =>
            Log DEBUG "ext_pillar.mongo: found document, returning fields '%s'"
                [VList (VText <$> name :: names)]
        | _ => Log DEBUG "ext_pillar.mongo: found document, returning whole doc" []
        end].
Proof.
  intros Hready Hkey Hdoc Hfull.
  rewrite (ext_pillar_outcome mdb key) by done. cbn zeta. cbn [fst].
  rewrite get_find_one_run, Hdoc.
  cbn [truthy]. rewrite bool_decide_eq_false_2 by done. cbn [negb fst].
  by destruct fields as [[|name names]|].
Qed.

(** X15: when the aggregation has no document the result is an empty
    mapping, and the one record after the query is at error level if the
    answer of [aggregate] is true as a value (a cursor), at debug level if it
    is not. *)
Theorem empty_aggregation_record mdb key results minion_id pillar collection
        id_field re_pattern re_replace fields stages :
  store_ready mdb →
  lookup_key re_pattern re_replace minion_id = Return key →
  db_aggregate mdb collection
    (VDict {[ "$match" := VDict {[ id_field := VText key ]} ]} :: stages)
  = Return results →
  cursor_list results = [] →
  ext_pillar minion_id pillar collection id_field re_pattern re_replace
             fields (Some stages)
  = (prologue opts
     ++ [lookup_record id_field key;
         Aggregate collection
           (VDict {[ "$match" := VDict {[ id_field := VText key ]} ]} :: stages);
         if cursor_truthy results
         then Log ERROR "ext_pillar.mongo: pipeline returned no results" []
         else Log DEBUG "ext_pillar.mongo: no response from pipeline %s"
                  [VText collection]],
     Return (VDict ∅)).
Proof.
  intros Hready Hkey Hresults Hnil.
  rewrite (ext_pillar_outcome mdb key) by done. cbn zeta.
  rewrite get_aggregate_run. cbn zeta. rewrite Hresults, Hnil.
  by destruct (cursor_truthy results).
Qed.

(** X16: when the aggregation has exactly one document, nothing is logged
    after the query. *)
Theorem single_result_no_record mdb key results doc minion_id pillar collection
        id_field re_pattern re_replace fields stages :
  store_ready mdb →
  lookup_key re_pattern re_replace minion_id = Return key →
  db_aggregate mdb collection
    (VDict {[ "$match" := VDict {[ id_field := VText key ]} ]} :: stages)
  = Return results →
  cursor_list results = [doc] →
  (ext_pillar minion_id pillar collection id_field re_pattern re_replace
              fields (Some stages)).1
  = prologue opts
    ++ [lookup_record id_field key;
        Aggregate collection
          (VDict {[ "$match" := VDict {[ id_field := VText key ]} ]} :: stages)].
Proof.
  intros Hready Hkey Hresults Hone.
  rewrite (ext_pillar_outcome mdb key) by done. cbn zeta. cbn [fst].
  rewrite get_aggregate_run. cbn zeta. rewrite Hresults.
  rewrite nonempty_results_truthy by (by rewrite Hone).
  by rewrite Hone.
Qed.

(** X17: no run logs at warning or critical level, and a run of the
    single-document strategy logs at debug and info level only: a missing
    document is not reported as an error there. *)
Theorem log_levels_of_run minion_id pillar collection id_field re_pattern
        re_replace fields aggregate :
  Forall (λ lvl, lvl = DEBUG ∨ lvl = INFO ∨ (lvl = ERROR ∧ aggregate ≠ None))
         (log_levels (ext_pillar minion_id pillar collection id_field re_pattern
                                 re_replace fields aggregate).1).
Proof.
  assert (Hprologue : Forall (λ lvl, lvl = DEBUG ∨ lvl = INFO
                                     ∨ (lvl = ERROR ∧ aggregate ≠ None))
                             (log_levels (prologue opts))).
  { unfold prologue. destruct (_ && _); cbn; levels. }
  destruct (ext_pillar_cases minion_id pillar collection id_field re_pattern
              re_replace fields aggregate)
    as [(e & _ & ->)
       | [(conn & e & _ & _ & ->)
         | [(conn & mdb & e & _ & _ & _ & _ & ->)
           | [(mdb & e & _ & _ & ->)
             | (mdb & key & _ & _ & ->)]]]]; cbn [fst]; try done.
  - cbn. levels.
  - cbn. levels.
  - rewrite bind_fst_snd. cbn [fst].
    rewrite !log_levels_app. apply Forall_app_2; [apply Forall_app_2; [done|]|].
    + cbn. levels.
    + destruct aggregate as [stages|].
      * rewrite get_aggregate_run. cbn zeta.
        destruct (db_aggregate _ _ _) as [results|e]; [|cbn; levels].
        destruct (cursor_truthy results);
          [destruct (cursor_list results) as [|doc [|doc' docs]]|];
          cbn; levels.
      * rewrite get_find_one_run. unfold found_record, not_found_record.
        destruct (db_find_one _ _ _ _) as [[doc|]|e];
          [destruct (truthy (VDict doc)); [destruct (truthy_opt _ _)|]| |];
          cbn; levels.
Qed.

End Runs.

(** ** Worked examples of whole runs *)

Lemma mem_store_ready_with opts colls :
  store_ready (mem_client colls) opts (mem_db colls).
Proof. eexists. split; [reflexivity|]. split; [reflexivity|]. done. Qed.

Lemma dropped_store_ready : store_ready dropped_client default_opts dropped_db.
Proof. eexists. split; [reflexivity|]. split; [reflexivity|]. done. Qed.

(** With an empty [mongo.db] the database cannot be selected: the call ends
    there, before any authentication, although credentials are
    configured. *)
Example invalid_database_run :
  ext_pillar scalar_str literal_sub (strict_client store)
             {| mongo_db := ""; mongo_host := "db.example.com";
                mongo_password := "secret"; mongo_port := 27017;
                mongo_user := "pillar" |}
             "web1" ∅ "vm" "name" None "" None None
  = ([Log INFO "connecting to %s:%s for mongo ext_pillar"
          [VText "db.example.com"; VInt 27017];
      Connect "db.example.com" 27017;
      Log DEBUG "using database '%s'" [VText ""]],
     Raise (InvalidName "database name cannot be the empty string")).
Proof. reflexivity. Qed.

(** X1 with a server that cannot be reached. *)
Lemma connection_error_propagates_witness :
  ext_pillar scalar_str literal_sub unreachable_client default_opts
             "web1" ∅ "vm" "name" None "" None None
  = ([Log INFO "connecting to %s:%s for mongo ext_pillar" [VText "salt"; VInt 27017];
      Connect "salt" 27017],
     Raise (ConnectionFailure "unreachable")).
Proof.
  apply (connection_error_propagates scalar_str literal_sub unreachable_client
           default_opts).
  reflexivity.
Defined.

(** X4 with credentials that the server refuses. *)
Lemma authentication_error_propagates_witness :
  ext_pillar scalar_str literal_sub (refusing_client store) secured_opts
             "web1" ∅ "vm" "name" None "" None None
  = ([Log INFO "connecting to %s:%s for mongo ext_pillar"
          [VText "db.example.com"; VInt 27017];
      Connect "db.example.com" 27017;
      Log DEBUG "using database '%s'" [VText "salt"];
      Log DEBUG "authenticating as '%s'" [VText "pillar"];
      Authenticate "pillar" "secret"],
     Raise (OperationFailure "Authentication failed.")).
Proof.
  eapply (authentication_error_propagates scalar_str literal_sub
            (refusing_client store) secured_opts); reflexivity.
Defined.

(** X5 with a connection that drops at the query. *)
Lemma find_one_error_propagates_witness :
  ext_pillar scalar_str literal_sub dropped_client default_opts
             "web1" ∅ "vm" "name" None "" None None
  = (prologue default_opts
     ++ [lookup_record "name" "web1";
         FindOne "vm" {[ "name" := VText "web1" ]} None],
     Raise (ConnectionFailure "connection closed")).
Proof.
  apply (find_one_error_propagates scalar_str literal_sub dropped_client
           default_opts dropped_db "web1").
  - apply dropped_store_ready.
  - reflexivity.
  - reflexivity.
Defined.

(** X6 with a stage that the in-memory store does not take. *)
Lemma aggregate_error_propagates_witness :
  ext_pillar scalar_str literal_sub (mem_client store) default_opts
             "web1" ∅ "vm" "name" None "" None
             (Some [VDict {[ "$project" := VDict {[ "role" := VInt 1 ]} ]}])
  = (prologue default_opts
     ++ [lookup_record "name" "web1";
         Aggregate "vm"
           [VDict {[ "$match" := VDict {[ "name" := VText "web1" ]} ]};
            VDict {[ "$project" := VDict {[ "role" := VInt 1 ]} ]}]],
     Raise (OperationFailure "stage outside the in-memory store")).
Proof.
  apply (aggregate_error_propagates scalar_str literal_sub (mem_client store)
           default_opts (mem_db store) "web1").
  - apply mem_store_ready_with.
  - reflexivity.
  - vm_compute. reflexivity.
Defined.

(** X8 with credentials: connection, authentication, query. *)
Lemma external_calls_in_order_witness :
  external_calls (ext_pillar scalar_str literal_sub (mem_client store) secured_opts
                             "web1.example.com" ∅ "vm" "name"
                             (Some "\.example\.com") "" (Some ["role"]) None).1
  = [Connect "db.example.com" 27017;
     Authenticate "pillar" "secret";
     FindOne "vm" {[ "name" := VText "web1" ]} (Some ["role"])].
Proof.
  etrans.
  - apply (external_calls_in_order scalar_str literal_sub (mem_client store)
             secured_opts (mem_db store) "web1").
    + apply mem_store_ready_with.
    + reflexivity.
  - reflexivity.
Defined.

(** X18 on the lookup of [web1] by name. *)
Lemma lookup_logged_before_query_witness :
  ∃ t,
    (ext_pillar scalar_str literal_sub (mem_client store) default_opts
                "web1.example.com" ∅ "vm" "name"
                (Some "\.example\.com") "" None None).1
    = prologue default_opts
      ++ [lookup_record "name" "web1";
          query_for "vm" "name" "web1" None None]
      ++ t
    ∧ external_calls t = [].
Proof.
  apply (lookup_logged_before_query scalar_str literal_sub (mem_client store)
           default_opts (mem_db store) "web1").
  - apply mem_store_ready_with.
  - reflexivity.
Defined.

(** X9 on the lookup of [web1] with a projection. *)
Lemma find_one_returns_mapping_witness :
  ∃ doc,
    VDict {[ "_id" := VText "5f1d7f3c9d1e8a0012345678"; "role" := VText "web" ]}
    = VDict doc.
Proof.
  apply (find_one_returns_mapping scalar_str literal_sub (mem_client store)
           default_opts
           [Log INFO "connecting to %s:%s for mongo ext_pillar"
                [VText "salt"; VInt 27017];
            Connect "salt" 27017;
            Log DEBUG "using database '%s'" [VText "salt"];
            lookup_record "name" "web1";
            FindOne "vm" {[ "name" := VText "web1" ]} (Some ["role"]);
            found_record (Some ["role"])]
           _ "web1.example.com" ∅ "vm" "name" (Some "\.example\.com") ""
           (Some ["role"])).
  vm_compute. reflexivity.
Defined.

(** X10 on the [twins] collection. *)
Lemma aggregate_none_iff_many_witness :
  (ext_pillar scalar_str literal_sub (mem_client store) default_opts
              "web1" ∅ "twins" "name" None "" None (Some [])).2
  = Return VNone.
Proof.
  apply (aggregate_none_iff_many scalar_str literal_sub (mem_client store)
           default_opts (mem_db store) "web1" (CommandCursor [twin1; twin2])).
  - apply mem_store_ready_with.
  - reflexivity.
  - vm_compute. reflexivity.
  - cbn. lia.
Defined.

(** X11 on the [pillar] collection, keyed on the minion id. *)
Lemma text_id_document_unchanged_witness :
  (ext_pillar scalar_str literal_sub (mem_client store) default_opts
              "minion1" ∅ "pillar" "_id" None "" None None).2
  = Return (VDict minion1).
Proof.
  apply (text_id_document_unchanged scalar_str literal_sub (mem_client store)
           default_opts (mem_db store) "minion1" minion1 "minion1").
  - apply mem_store_ready_with.
  - reflexivity.
  - vm_compute. reflexivity.
  - reflexivity.
Defined.

(** X12 on [web1], whose identifier is native. *)
Lemma find_one_other_fields_unchanged_witness :
  ∃ result,
    (ext_pillar scalar_str literal_sub (mem_client store) default_opts
                "web1" ∅ "vm" "name" None "" None None).2
    = Return (VDict result)
    ∧ (∀ k, k ≠ "_id" → result !! k = web1 !! k)
    ∧ (is_Some (result !! "_id") ↔ is_Some (web1 !! "_id")).
Proof.
  apply (find_one_other_fields_unchanged scalar_str literal_sub (mem_client store)
           default_opts (mem_db store) "web1").
  - apply mem_store_ready_with.
  - reflexivity.
  - vm_compute. reflexivity.
Defined.

(** X13 on a document that the projection leaves empty. *)
Lemma empty_document_is_not_found_witness :
  ext_pillar scalar_str literal_sub (mem_client bare_store) default_opts
             "web1" ∅ "bare" "name" None "" (Some ["role"]) None
  = (prologue default_opts
     ++ [lookup_record "name" "web1";
         FindOne "bare" {[ "name" := VText "web1" ]} (Some ["role"]);
         Log DEBUG "ext_pillar.mongo: no document found in collection %s"
             [VText "bare"]],
     Return (VDict ∅)).
Proof.
  apply (empty_document_is_not_found scalar_str literal_sub (mem_client bare_store)
           default_opts (mem_db bare_store) "web1").
  - apply mem_store_ready_with.
  - reflexivity.
  - right. vm_compute. reflexivity.
Defined.

(** X14 with [fields] given as the empty list: the document found has its
    [_id] only and the record says "whole doc". *)
Lemma found_document_record_witness :
  (ext_pillar scalar_str literal_sub (mem_client store) default_opts
              "web1" ∅ "vm" "name" None "" (Some []) None).1
  = prologue default_opts
    ++ [lookup_record "name" "web1";
        FindOne "vm" {[ "name" := VText "web1" ]} (Some []);
        Log DEBUG "ext_pillar.mongo: found document, returning whole doc" []].
Proof.
  apply (found_document_record scalar_str literal_sub (mem_client store)
           default_opts (mem_db store) "web1"
           {[ "_id" := VObjectId "5f1d7f3c9d1e8a0012345678" ]}).
  - apply mem_store_ready_with.
  - reflexivity.
  - vm_compute. reflexivity.
  - intros Hempty. apply (f_equal (λ doc : document, doc !! "_id")) in Hempty.
    vm_compute in Hempty. discriminate.
Defined.

(** X15 on a minion that [vm] does not know. *)
Lemma empty_aggregation_record_witness :
  ext_pillar scalar_str literal_sub (mem_client store) default_opts
             "nobody" ∅ "vm" "name" None "" None (Some [])
  = (prologue default_opts
     ++ [lookup_record "name" "nobody";
         Aggregate "vm" [VDict {[ "$match" := VDict {[ "name" := VText "nobody" ]} ]}];
         Log ERROR "ext_pillar.mongo: pipeline returned no results" []],
     Return (VDict ∅)).
Proof.
  apply (empty_aggregation_record scalar_str literal_sub (mem_client store)
           default_opts (mem_db store) "nobody" (CommandCursor [])).
  - apply mem_store_ready_with.
  - reflexivity.
  - vm_compute. reflexivity.
  - reflexivity.
Defined.

(** X16 on [web1]. *)
Lemma single_result_no_record_witness :
  (ext_pillar scalar_str literal_sub (mem_client store) default_opts
              "web1" ∅ "vm" "name" None "" None (Some [])).1
  = prologue default_opts
    ++ [lookup_record "name" "web1";
        Aggregate "vm" [VDict {[ "$match" := VDict {[ "name" := VText "web1" ]} ]}]].
Proof.
  apply (single_result_no_record scalar_str literal_sub (mem_client store)
           default_opts (mem_db store) "web1" (CommandCursor [web1]) web1).
  - apply mem_store_ready_with.
  - reflexivity.
  - vm_compute. reflexivity.
  - reflexivity.
Defined.
